(** * esp32_cam_monitor: the request handlers of [api/index.py]

    A shallow embedding of the FastAPI application in [api/index.py] and the
    properties of its four endpoints.  The handlers are written in a small
    state-and-exception monad over a [world] that holds what the handlers can
    reach: the two Postgres tables, the blob store, the set of open database
    connections and the process's standard output.  Everything outside the
    file (whether a statement fails, the clock, the URL the blob store hands
    back, the configured secret) is read from an [env]. *)

From Stdlib Require Import ZArith String Ascii List Lia DecimalString.
From Stdlib.Strings Require Import Byte.
From stdpp Require Import base option list gmap sets strings sorting.

Set Warnings "-register-all".
Local Open Scope Z_scope.
Local Open Scope string_scope.

(** ** Values *)

(** [datetime.datetime] in UTC, field by field. *)
Record datetime := mk_datetime {
  year : Z; month : Z; day : Z;
  hour : Z; minute : Z; second : Z; microsecond : Z
}.

#[global] Instance datetime_eq_dec : EqDecision datetime.
Proof. solve_decision. Defined.

(** The JSON documents the handlers put in a response. *)
Inductive json :=
| JBool (b : bool)
| JString (s : string)
| JArray (items : list json)
| JObject (fields : list (string * json)).

(** [JSONResponse(content=..., status_code=...)]; the status defaults to 200. *)
Record JSONResponse := mk_response { content : json; status_code : Z }.

(** What [raise] can carry.  [HTTPException] is the FastAPI class; [Error]
    stands for every other exception (asyncpg's, the blob client's) and keeps
    its text.  Both derive from Python's [Exception]. *)
Inductive exn :=
| HTTPException (status : Z) (detail : string)
| Error (msg : string).

(** [str(int)]. *)
Definition str_int (n : Z) : string := NilZero.string_of_int (Z.to_int n).

(** [str(e)]: Starlette's [HTTPException.__str__] gives "status: detail";
    any other exception gives its message. *)
Definition str (e : exn) : string :=
  match e with
  | HTTPException s d => str_int s +:+ ": " +:+ d
  | Error msg => msg
  end.

(** ** Formatting timestamps *)

Definition digit (d : Z) : ascii := ascii_of_nat (48 + Z.to_nat d).

(** C's [%0wd]: the [width] low decimal digits of [n], most significant first. *)
Fixpoint zero_padded (width : nat) (n : Z) : list ascii :=
  match width with
  | O => []
  | S w => zero_padded w (n / 10) ++ [digit (n mod 10)]
  end.

(** The [strftime] directives the program uses, and literal characters. *)
Inductive directive := dY | dm | dd | dH | dM | dS | df | lit (c : ascii).

Definition directive_chars (t : datetime) (d : directive) : list ascii :=
  match d with
  | dY => zero_padded 4 (year t)
  | dm => zero_padded 2 (month t)
  | dd => zero_padded 2 (day t)
  | dH => zero_padded 2 (hour t)
  | dM => zero_padded 2 (minute t)
  | dS => zero_padded 2 (second t)
  | df => zero_padded 6 (microsecond t)
  | lit c => [c]
  end.

Definition strftime_chars (fmt : list directive) (t : datetime) : list ascii :=
  concat (map (directive_chars t) fmt).

Definition strftime (fmt : list directive) (t : datetime) : string :=
  string_of_list_ascii (strftime_chars fmt t).

(** ['%Y%m%d_%H%M%S_%f'] *)
Definition filename_format : list directive :=
  [dY; dm; dd; lit "_"%char; dH; dM; dS; lit "_"%char; df].

(** [f"motion-capture-{utc_now.strftime('%Y%m%d_%H%M%S_%f')}.jpg"] *)
Definition filename_of (utc_now : datetime) : string :=
  "motion-capture-" +:+ strftime filename_format utc_now +:+ ".jpg".

(** [datetime.isoformat()] of a UTC-aware value: the fraction is left out when
    the microsecond field is zero. *)
Definition isoformat (t : datetime) : string :=
  strftime [dY; lit "-"%char; dm; lit "-"%char; dd; lit "T"%char;
            dH; lit ":"%char; dM; lit ":"%char; dS] t
  +:+ (if decide (microsecond t = 0) then EmptyString else "." +:+ strftime [df] t)
  +:+ "+00:00".

(** Chronological order on UTC field records: lexicographic on the fields. *)
Definition dt_fields (t : datetime) : list Z :=
  [year t; month t; day t; hour t; minute t; second t; microsecond t].

Fixpoint lex_leb (a b : list Z) : bool :=
  match a, b with
  | [], _ => true
  | _ :: _, [] => false
  | x :: a', y :: b' =>
      if (x <? y)%Z then true else if (y <? x)%Z then false else lex_leb a' b'
  end.

Definition dt_leb (a b : datetime) : bool := lex_leb (dt_fields a) (dt_fields b).

(** ** The stores *)

(** A row of [motion_images]. *)
Record image_row := mk_image_row {
  id : Z; image_url : string; captured_at : datetime
}.

(** [motion_images] with the sequence behind its [SERIAL] column. *)
Record images_table := mk_images_table {
  rows : list image_row; next_id : Z
}.

Inductive access := Public | Private.

(** An object in the blob store. *)
Record blob := mk_blob {
  pathname : string; data : list byte; blob_access : access; url : string
}.

(** The statements the program sends. *)
Inductive sql :=
| CREATE_TABLE_QUERY
| UPDATE_trigger_capture (v : bool)
| SELECT_trigger_capture
| INSERT_motion_image (u : string) (at_ : datetime)
| SELECT_motion_images.

Record world := mk_world {
  motion_images : option images_table;     (* None: the table does not exist *)
  camera_control : option (gmap Z bool);   (* keyed by the primary key [id] *)
  blobs : list blob;
  open_conns : gset nat;
  next_conn : nat;
  issued : list sql;                       (* statements sent, oldest first *)
  stdout : list string
}.

(** A database and blob store nobody has touched yet. *)
Definition fresh_world : world :=
  mk_world None None [] ∅ 0%nat [] [].

(** ** The environment of a request *)

(** The places where a call leaves the process and may fail. *)
Inductive site :=
| AtConnect | AtSchema | AtSetTrigger | AtReadTrigger | AtClearTrigger
| AtInsertImage | AtReadImages | AtBlobPut.

Record env := mk_env {
  API_KEY : option string;          (* os.environ.get("API_SECRET_KEY") *)
  fault : site → option string;     (* the text of the error raised there *)
  utc_clock : datetime;             (* datetime.datetime.now(pytz.utc) *)
  blob_url : string                 (* the 'url' of a successful put *)
}.

Definition site_of (q : sql) : site :=
  match q with
  | CREATE_TABLE_QUERY => AtSchema
  | UPDATE_trigger_capture true => AtSetTrigger
  | UPDATE_trigger_capture false => AtClearTrigger
  | SELECT_trigger_capture => AtReadTrigger
  | INSERT_motion_image _ _ => AtInsertImage
  | SELECT_motion_images => AtReadImages
  end.

(** ** The monad: environment, state and exceptions *)

Inductive result (A : Type) :=
| Ok (a : A)
| Raise (e : exn).
Arguments Ok {A} a.
Arguments Raise {A} e.

Definition M (A : Type) : Type := env → world → result A * world.

#[global] Instance M_ret : MRet M := λ A a _ w, (Ok a, w).

#[global] Instance M_bind : MBind M := λ A B k m e w,
  match m e w with
  | (Ok a, w') => k a e w'
  | (Raise x, w') => (Raise x, w')
  end.

Definition raise {A} (x : exn) : M A := λ _ w, (Raise x, w).

(** [try: body  except Exception as e: handler(e)] *)
Definition try_except {A} (body : M A) (handler : exn → M A) : M A :=
  λ e w,
    match body e w with
    | (Ok a, w') => (Ok a, w')
    | (Raise x, w') => handler x e w'
    end.

Definition ask : M env := λ e w, (Ok e, w).
Definition gets {A} (f : world → A) : M A := λ _ w, (Ok (f w), w).
Definition modify (f : world → world) : M unit := λ _ w, (Ok tt, f w).

(** [print(s)] *)
Definition print (s : string) : M unit :=
  modify (λ w,
    mk_world (motion_images w) (camera_control w) (blobs w) (open_conns w)
             (next_conn w) (issued w) (stdout w ++ [s])).

(** ** The database server and the blob store *)

Definition dquote : string := String (ascii_of_nat 34) EmptyString.

(** The server's complaint about a table that is not there. *)
Definition no_such_table (name : string) : string :=
  "relation " +:+ dquote +:+ name +:+ dquote +:+ " does not exist".

(** [INSERT INTO camera_control (id, trigger_capture) VALUES (1, FALSE)
     ON CONFLICT (id) DO NOTHING] *)
Definition seed_control_row (m : gmap Z bool) : gmap Z bool :=
  match m !! 1 with
  | Some _ => m
  | None => <[1 := false]> m
  end.

(** [UPDATE camera_control SET trigger_capture = v WHERE id = 1] *)
Definition update_control_row (v : bool) (m : gmap Z bool) : gmap Z bool :=
  match m !! 1 with
  | Some _ => <[1 := v]> m
  | None => m
  end.

(** [INSERT INTO motion_images (image_url, captured_at) VALUES ($1, $2)] *)
Definition insert_image (u : string) (t : datetime) (tb : images_table)
  : images_table :=
  mk_images_table (rows tb ++ [mk_image_row (next_id tb) u t]) (next_id tb + 1).

Definition set_tables (mi : option images_table) (cc : option (gmap Z bool))
    (w : world) : world :=
  mk_world mi cc (blobs w) (open_conns w) (next_conn w) (issued w) (stdout w).

(** What a statement does to the tables once the server runs it; [inl] is
    the server's error and leaves the tables as they were. *)
Definition run_sql (q : sql) (w : world) : string + world :=
  match q with
  | CREATE_TABLE_QUERY =>
      inr (set_tables
             (Some (default (mk_images_table [] 1) (motion_images w)))
             (Some (seed_control_row (default ∅ (camera_control w))))
             w)
  | UPDATE_trigger_capture v =>
      match camera_control w with
      | None => inl (no_such_table "camera_control")
      | Some m => inr (set_tables (motion_images w)
                                  (Some (update_control_row v m)) w)
      end
  | INSERT_motion_image u t =>
      match motion_images w with
      | None => inl (no_such_table "motion_images")
      | Some tb => inr (set_tables (Some (insert_image u t tb))
                                   (camera_control w) w)
      end
  | SELECT_trigger_capture =>
      match camera_control w with
      | None => inl (no_such_table "camera_control")
      | Some _ => inr w
      end
  | SELECT_motion_images =>
      match motion_images w with
      | None => inl (no_such_table "motion_images")
      | Some _ => inr w
      end
  end.

Definition log_sql (q : sql) (w : world) : world :=
  mk_world (motion_images w) (camera_control w) (blobs w) (open_conns w)
           (next_conn w) (issued w ++ [q]) (stdout w).

(** Sending a statement: it is recorded as sent; then the environment may
    fail it, or the server runs it. *)
Definition send (q : sql) : M unit := λ e w,
  let w1 := log_sql q w in
  match fault e (site_of q) with
  | Some txt => (Raise (Error txt), w1)
  | None =>
      match run_sql q w1 with
      | inl txt => (Raise (Error txt), w1)
      | inr w2 => (Ok tt, w2)
      end
  end.

(** [asyncpg.connect(DATABASE_URL)]: a new connection handle. *)
Definition connect : M nat := λ e w,
  match fault e AtConnect with
  | Some txt => (Raise (Error txt), w)
  | None =>
      (Ok (next_conn w),
       mk_world (motion_images w) (camera_control w) (blobs w)
                ({[next_conn w]} ∪ open_conns w) (S (next_conn w))
                (issued w) (stdout w))
  end.

(** [conn.execute(q)] *)
Definition execute (conn : nat) (q : sql) : M unit := send q.

(** [conn.fetchrow("SELECT trigger_capture FROM camera_control WHERE id = 1")]:
    the row's [trigger_capture], or [None] when no row has id 1. *)
Definition fetchrow (conn : nat) : M (option bool) :=
  send SELECT_trigger_capture;;
  gets (λ w, default ∅ (camera_control w) !! 1).

(** [ORDER BY captured_at DESC] *)
Definition later_first (a b : image_row) : Prop :=
  dt_leb (captured_at b) (captured_at a) = true.

#[global] Instance later_first_dec : RelDecision later_first.
Proof. intros a b. unfold later_first. apply _. Defined.

(** [conn.fetch("SELECT image_url, captured_at FROM motion_images
                 ORDER BY captured_at DESC")] *)
Definition fetch (conn : nat) : M (list image_row) :=
  send SELECT_motion_images;;
  gets (λ w, merge_sort later_first
               (rows (default (mk_images_table [] 1) (motion_images w)))).

(** [conn.close()] *)
Definition close (conn : nat) : M unit :=
  modify (λ w,
    mk_world (motion_images w) (camera_control w) (blobs w)
             (open_conns w ∖ {[conn]}) (next_conn w) (issued w) (stdout w)).

(** [vercel_blob.put(name, body, options={'access': ...})['url']] *)
Definition put (name : string) (body : list byte) (acc : access) : M string :=
  λ e w,
  match fault e AtBlobPut with
  | Some txt => (Raise (Error txt), w)
  | None =>
      (Ok (blob_url e),
       mk_world (motion_images w) (camera_control w)
                (blobs w ++ [mk_blob name body acc (blob_url e)])
                (open_conns w) (next_conn w) (issued w) (stdout w))
  end.

(** [datetime.datetime.now(pytz.utc)] *)
Definition now_utc : M datetime := e ← ask; mret (utc_clock e).

(** ** [api/index.py] *)

(** Security setup: [APIKeyHeader(name="x-api-key", auto_error=True)] raises
    when the header is absent, before [verify_api_key] is called. *)
Definition api_key_header (header : option string) : M string :=
  match header with
  | None => raise (HTTPException 403 "Not authenticated")
  | Some key => mret key
  end.

Definition verify_api_key (key : string) : M string :=
  e ← ask;
  if decide (Some key ≠ API_KEY e)
  then raise (HTTPException 403 "Could not validate credentials")
  else mret key.

Definition get_db_connection : M nat :=
  try_except
    (conn ← connect;
     execute conn CREATE_TABLE_QUERY;;
     mret conn)
    (λ e,
      print ("Database connection error: " +:+ str e);;
      raise (HTTPException 500 "Could not connect to the database.")).

Definition trigger_capture : M JSONResponse :=
  conn ← get_db_connection;
  execute conn (UPDATE_trigger_capture true);;
  close conn;;
  mret (mk_response
          (JObject [("message", JString "Capture triggered successfully.")])
          200).

(** Lines 74 to 80 of [check_trigger]: what it does with the fetched record. *)
Definition check_trigger_with (conn : nat) (record : option bool)
  : M JSONResponse :=
  let trigger_status := match record with Some v => v | None => false end in
  (if trigger_status
   then execute conn (UPDATE_trigger_capture false)
   else mret tt);;
  close conn;;
  mret (mk_response (JObject [("trigger", JBool trigger_status)]) 200).

Definition check_trigger : M JSONResponse :=
  conn ← get_db_connection;
  record ← fetchrow conn;
  check_trigger_with conn record.

Definition upload_image (request_body : list byte) : M JSONResponse :=
  try_except
    (let image_bytes := request_body in
     (if decide (image_bytes = [])
      then raise (HTTPException 400 "No image data received.")
      else mret tt);;
     utc_now ← now_utc;
     let filename := filename_of utc_now in
     image_url ← put filename image_bytes Public;
     conn ← get_db_connection;
     execute conn (INSERT_motion_image image_url utc_now);;
     close conn;;
     mret (mk_response
             (JObject [("message", JString "Image uploaded successfully");
                       ("url", JString image_url)])
             201))
    (λ e,
      print ("An error occurred during upload: " +:+ str e);;
      mret (mk_response (JObject [("error", JString (str e))]) 500)).

Definition image_json (record : image_row) : json :=
  JObject [("url", JString (image_url record));
           ("timestamp", JString (isoformat (captured_at record)))].

Definition get_images : M JSONResponse :=
  try_except
    (conn ← get_db_connection;
     records ← fetch conn;
     close conn;;
     let images := map image_json records in
     mret (mk_response (JObject [("images", JArray images)]) 200))
    (λ e,
      print ("An error occurred while fetching images: " +:+ str e);;
      mret (mk_response (JObject [("error", JString (str e))]) 500)).

(** ** Routing *)

Inductive endpoint :=
| POST_trigger_capture
| GET_check_trigger
| POST_upload (body : list byte)
| GET_images.

Record request := mk_request {
  x_api_key : option string;     (* the x-api-key header, if sent *)
  target : endpoint
}.

Definition handler (ep : endpoint) : M JSONResponse :=
  match ep with
  | POST_trigger_capture => trigger_capture
  | GET_check_trigger => check_trigger
  | POST_upload body => upload_image body
  | GET_images => get_images
  end.

(** [dependencies=[Depends(verify_api_key)]]: the dependency runs first and
    the endpoint function only if it did not raise. *)
Definition serve (r : request) : M JSONResponse :=
  key ← api_key_header (x_api_key r);
  verify_api_key key;;
  handler (target r).

(** What goes on the wire.  A returned response is sent as it is; FastAPI
    turns an [HTTPException] into its status with a "detail" body, and any
    other escaping exception into a plain 500. *)
Inductive http_body := JsonBody (j : json) | TextBody (s : string).

Record http_response := mk_http { http_status : Z; http_content : http_body }.

Definition on_the_wire (r : result JSONResponse) : http_response :=
  match r with
  | Ok resp => mk_http (status_code resp) (JsonBody (content resp))
  | Raise (HTTPException s d) =>
      mk_http s (JsonBody (JObject [("detail", JString d)]))
  | Raise (Error _) => mk_http 500 (TextBody "Internal Server Error")
  end.

(** An environment in which nothing fails. *)
Definition calm (key : option string) (t : datetime) (u : string) : env :=
  mk_env key (λ _, None) t u.

(** ** The vocabulary of the properties *)

(** No statement sent to the database fails (connecting and the blob write
    still may). *)
Definition statements_succeed (e : env) : Prop :=
  ∀ q : sql, fault e (site_of q) = None.

(** [JSONResponse(content={"error": txt}, status_code=500)] *)
Definition error_response (txt : string) : JSONResponse :=
  mk_response (JObject [("error", JString txt)]) 500.

(** [get_db_connection] cannot hand out a connection: connecting fails, or
    connecting works and the schema script fails. *)
Definition db_unreachable (e : env) (txt : string) : Prop :=
  fault e AtConnect = Some txt
  ∨ (fault e AtConnect = None ∧ fault e AtSchema = Some txt).

Definition could_not_connect : exn :=
  HTTPException 500 "Could not connect to the database.".

(** The [trigger_capture] column of the row with id 1, if the table and the
    row are there. *)
Definition stored_flag (w : world) : option bool :=
  match camera_control w with
  | Some m => m !! 1
  | None => None
  end.

Definition trigger_response (b : bool) : JSONResponse :=
  mk_response (JObject [("trigger", JBool b)]) 200.

Definition no_faults (e : env) : Prop := ∀ s : site, fault e s = None.

(** [camera_control] holds one row, and its id is 1. *)
Definition single_control_row (w : world) : Prop :=
  ∃ b : bool, camera_control w = Some {[1 := b]}.

(** A run of the server: the requests in the order they are served, each
    with the environment it meets. *)
Definition serve_all (history : list (request * env)) (w : world) : world :=
  foldl (λ w re, snd (serve re.1 re.2 w)) w history.

(** The rows of [motion_images]; none when the table does not exist. *)
Definition stored_rows (w : world) : list image_row :=
  match motion_images w with
  | Some tb => rows tb
  | None => []
  end.

Definition images_response (listed : list image_row) : JSONResponse :=
  mk_response (JObject [("images", JArray (map image_json listed))]) 200.

Definition uploaded_response (u : string) : JSONResponse :=
  mk_response
    (JObject [("message", JString "Image uploaded successfully");
              ("url", JString u)])
    201.

(** The id the next [INSERT] gets from the sequence. *)
Definition upcoming_id (w : world) : Z :=
  match motion_images w with
  | Some tb => next_id tb
  | None => 1
  end.

(** Uploads served one after the other, each with its own environment. *)
Definition upload_all (uploads : list (list byte * env)) (w : world) : world :=
  foldl (λ w u, snd (upload_image u.1 u.2 w)) w uploads.

Definition url_and_time (r : image_row) : string * datetime :=
  (image_url r, captured_at r).

(** Reading the name back: the digit a character stands for, a number of
    fixed width, a literal, and the timestamp a name of the shape
    [motion-capture-YYYYMMDD_HHMMSS_ffffff.jpg] carries. *)
Definition digit_value (c : ascii) : option Z :=
  let n := Z.of_nat (nat_of_ascii c) in
  if decide (48 ≤ n ≤ 57)%Z then Some (n - 48) else None.

Fixpoint number_from (acc : Z) (cs : list ascii) : option Z :=
  match cs with
  | [] => Some acc
  | c :: cs' => d ← digit_value c; number_from (acc * 10 + d) cs'
  end.

Definition read_field (width : nat) (cs : list ascii)
  : option (Z * list ascii) :=
  if decide (length (take width cs) = width)
  then n ← number_from 0 (take width cs); Some (n, drop width cs)
  else None.

Definition read_literal (s : string) (cs : list ascii) : option (list ascii) :=
  let l := list_ascii_of_string s in
  if decide (take (length l) cs = l) then Some (drop (length l) cs) else None.

Definition embedded_timestamp (name : string) : option datetime :=
  cs ← read_literal "motion-capture-" (list_ascii_of_string name);
  '(y, cs) ← read_field 4 cs;
  '(mo, cs) ← read_field 2 cs;
  '(d, cs) ← read_field 2 cs;
  cs ← read_literal "_" cs;
  '(h, cs) ← read_field 2 cs;
  '(mi, cs) ← read_field 2 cs;
  '(s, cs) ← read_field 2 cs;
  cs ← read_literal "_" cs;
  '(us, cs) ← read_field 6 cs;
  cs ← read_literal ".jpg" cs;
  if decide (cs = []) then Some (mk_datetime y mo d h mi s us) else None.

(** The field ranges of a [datetime.datetime] whose year has four digits. *)
Definition valid_datetime (t : datetime) : Prop :=
  (1000 ≤ year t ≤ 9999 ∧ 1 ≤ month t ≤ 12 ∧ 1 ≤ day t ≤ 31
   ∧ 0 ≤ hour t ≤ 23 ∧ 0 ≤ minute t ≤ 59 ∧ 0 ≤ second t ≤ 59
   ∧ 0 ≤ microsecond t ≤ 999999)%Z.

(** What a poll would read: the stored flag, false when there is no row. *)
Definition pending (w : world) : bool := default false (stored_flag w).

(** The credential of a request is missing or is not the configured secret. *)
Definition bad_key (r : request) (e : env) : Prop :=
  x_api_key r = None ∨ x_api_key r ≠ API_KEY e.

(** The blob and the row an upload made in environment [e] leaves. *)
Definition blob_of (body : list byte) (e : env) : blob :=
  mk_blob (filename_of (utc_clock e)) body Public (blob_url e).

Definition row_of (e : env) (w : world) : image_row :=
  mk_image_row (upcoming_id w) (blob_url e) (utc_clock e).

(** Some public blob was written under the name made from the row's instant,
    and the store answered with the row's URL. *)
Definition row_has_blob (w : world) (row : image_row) : Prop :=
  ∃ b, b ∈ blobs w
       ∧ pathname b = filename_of (captured_at row)
       ∧ url b = image_url row
       ∧ blob_access b = Public.

(** Manual capture requests served one after the other. *)
Definition trigger_all (envs : list env) (w : world) : world :=
  foldl (λ w e, snd (trigger_capture e w)) w envs.

(** Reading an [isoformat] string back: the fraction is optional. *)
Definition read_fraction (cs : list ascii) : option (Z * list ascii) :=
  match cs with
  | c :: cs' => if decide (c = "."%char) then read_field 6 cs' else Some (0, cs)
  | [] => Some (0, cs)
  end.

Definition timestamp_of_isoformat (s : string) : option datetime :=
  '(y, cs) ← read_field 4 (list_ascii_of_string s);
  cs ← read_literal "-" cs;
  '(mo, cs) ← read_field 2 cs;
  cs ← read_literal "-" cs;
  '(d, cs) ← read_field 2 cs;
  cs ← read_literal "T" cs;
  '(h, cs) ← read_field 2 cs;
  cs ← read_literal ":" cs;
  '(mi, cs) ← read_field 2 cs;
  cs ← read_literal ":" cs;
  '(sec, cs) ← read_field 2 cs;
  '(us, cs) ← read_fraction cs;
  cs ← read_literal "+00:00" cs;
  if decide (cs = []) then Some (mk_datetime y mo d h mi sec us) else None.

(** The request is an upload or a listing. *)
Definition about_images (r : request) : Prop :=
  match target r with
  | POST_upload _ | GET_images => True
  | POST_trigger_capture | GET_check_trigger => False
  end.

(** ** Running the handlers symbolically *)

Ltac unfold_ops :=
  unfold serve, handler, trigger_capture, check_trigger, check_trigger_with,
    upload_image, get_images, get_db_connection, api_key_header,
    verify_api_key, fetchrow, fetch, execute, close, put, connect, send,
    now_utc, print, try_except, raise, ask, gets, modify.

Ltac run := unfold_ops; unfold mbind, mret, M_bind, M_ret; cbn.

(** The formats on a sample instant, and a first upload and listing on an
    untouched store. *)
Example filename_of_sample :
  filename_of (mk_datetime 2024 3 7 9 5 2 123)
  = "motion-capture-20240307_090502_000123.jpg".
Proof. reflexivity. Qed.

Example isoformat_sample :
  isoformat (mk_datetime 2024 3 7 9 5 2 123) = "2024-03-07T09:05:02.000123+00:00"
  ∧ isoformat (mk_datetime 2024 3 7 9 5 2 0) = "2024-03-07T09:05:02+00:00".
Proof. split; reflexivity. Qed.

Example upload_then_list_sample :
  let e := calm (Some "s3cret") (mk_datetime 2024 3 7 9 5 2 123)
             "https://store.example/a.jpg" in
  let w := snd (upload_image [x2a%byte] e fresh_world) in
  fst (get_images e w)
  = Ok (mk_response
          (JObject [("images", JArray
             [JObject [("url", JString "https://store.example/a.jpg");
                       ("timestamp", JString "2024-03-07T09:05:02.000123+00:00")]])])
          200)
  ∧ issued w = [CREATE_TABLE_QUERY;
                INSERT_motion_image "https://store.example/a.jpg"
                  (mk_datetime 2024 3 7 9 5 2 123)].
Proof. split; vm_compute; reflexivity. Qed.

(** The later of two rows comes first in a listing. *)
Example fetch_order_sample :
  merge_sort later_first
    [mk_image_row 1 "a" (mk_datetime 2024 3 7 9 5 2 123);
     mk_image_row 2 "b" (mk_datetime 2024 3 7 9 5 3 0);
     mk_image_row 3 "c" (mk_datetime 2023 12 31 23 59 59 999999)]
  = [mk_image_row 2 "b" (mk_datetime 2024 3 7 9 5 3 0);
     mk_image_row 1 "a" (mk_datetime 2024 3 7 9 5 2 123);
     mk_image_row 3 "c" (mk_datetime 2023 12 31 23 59 59 999999)].
Proof. vm_compute. reflexivity. Qed.

Lemma seed_control_row_lookup m : is_Some (seed_control_row m !! 1).
Proof.
  unfold seed_control_row. destruct (m !! 1) as [b|] eqn:Hm.
  - rewrite Hm. eauto.
  - rewrite lookup_insert_eq. eauto.
Qed.

Lemma seed_control_row_idem m :
  seed_control_row (seed_control_row m) = seed_control_row m.
Proof.
  unfold seed_control_row at 1.
  destruct (seed_control_row_lookup m) as [b ->]. reflexivity.
Qed.

Lemma seed_control_row_single b :
  seed_control_row {[1 := b]} = ({[1 := b]} : gmap Z bool).
Proof. unfold seed_control_row. by rewrite lookup_singleton_eq. Qed.

Lemma seed_control_row_empty :
  seed_control_row ∅ = ({[1 := false]} : gmap Z bool).
Proof. reflexivity. Qed.

Lemma update_control_row_single v b :
  update_control_row v {[1 := b]} = ({[1 := v]} : gmap Z bool).
Proof.
  unfold update_control_row. rewrite lookup_singleton_eq.
  apply insert_singleton_eq.
Qed.

(** ** Empty uploads *)

(** C1. An upload with an empty body: the handler raises the 400
    [HTTPException] inside its own [try], the [except Exception] clause
    catches it, and the caller gets status 500 with the text of the 400 in
    the "error" field.  No blob is written, no statement is sent, no table
    changes. *)
Theorem upload_image_empty_body_answers_500 (e : env) (w : world) :
  let out := upload_image [] e w in
  fst out
  = Ok (error_response (str (HTTPException 400 "No image data received.")))
  ∧ str (HTTPException 400 "No image data received.")
    = "400: No image data received."
  ∧ http_status (on_the_wire (fst out)) = 500
  ∧ http_status (on_the_wire (fst out)) ≠ 400
  ∧ blobs (snd out) = blobs w
  ∧ motion_images (snd out) = motion_images w
  ∧ camera_control (snd out) = camera_control w
  ∧ issued (snd out) = issued w
  ∧ open_conns (snd out) = open_conns w.
Proof. run. repeat split; try reflexivity. discriminate. Qed.

(** ** Authentication *)

(** C8. A request whose [x-api-key] header is missing, or is not the
    configured secret, is answered 403 by the dependency; the endpoint
    function does not run and the world is left exactly as it was. *)
Theorem bad_key_is_forbidden (r : request) (e : env) (w : world) :
  x_api_key r = None ∨ x_api_key r ≠ API_KEY e →
  ∃ detail,
    serve r e w = (Raise (HTTPException 403 detail), w)
    ∧ http_status (on_the_wire (fst (serve r e w))) = 403.
Proof.
  intros Hbad. destruct r as [[key|] ep]; cbn in Hbad.
  - destruct Hbad as [?|Hne]; [discriminate|].
    exists "Could not validate credentials". run.
    destruct (decide (Some key ≠ API_KEY e)); [done|].
    exfalso. apply Hne. by destruct (decide (Some key = API_KEY e)).
  - exists "Not authenticated". run. done.
Qed.

Lemma bad_key_is_forbidden_witness :
  ∃ detail,
    serve (mk_request (Some "guess") (POST_upload [x2a%byte]))
          (calm (Some "s3cret") (mk_datetime 2024 3 7 9 5 2 123) "u")
          fresh_world
    = (Raise (HTTPException 403 detail), fresh_world)
    ∧ http_status (on_the_wire (fst
        (serve (mk_request (Some "guess") (POST_upload [x2a%byte]))
               (calm (Some "s3cret") (mk_datetime 2024 3 7 9 5 2 123) "u")
               fresh_world))) = 403.
Proof.
  apply (bad_key_is_forbidden
           (mk_request (Some "guess") (POST_upload [x2a%byte]))
           (calm (Some "s3cret") (mk_datetime 2024 3 7 9 5 2 123) "u")
           fresh_world).
  right. cbn. discriminate.
Defined.

(** ** Connections *)

#[local] Arguments seed_control_row : simpl never.
#[local] Arguments update_control_row : simpl never.
#[local] Arguments merge_sort : simpl never.
#[local] Arguments filename_of : simpl never.

Ltac use_statements H :=
  let H' := fresh in
  pose proof (H CREATE_TABLE_QUERY) as H'; cbn in H'; rewrite ?H'; clear H';
  pose proof (H (UPDATE_trigger_capture true)) as H'; cbn in H'; rewrite ?H'; clear H';
  pose proof (H (UPDATE_trigger_capture false)) as H'; cbn in H'; rewrite ?H'; clear H';
  pose proof (H SELECT_trigger_capture) as H'; cbn in H'; rewrite ?H'; clear H';
  pose proof (H (INSERT_motion_image EmptyString (mk_datetime 0 0 0 0 0 0 0))) as H';
  cbn in H'; rewrite ?H'; clear H';
  pose proof (H SELECT_motion_images) as H'; cbn in H'; rewrite ?H'; clear H'.

(** C2, as written, fails: when the [UPDATE] of [trigger_capture] raises,
    the function is left before [conn.close()], and the connection it
    opened stays open. *)
Lemma trigger_capture_failed_update_leaves_connection_open :
  let e := mk_env (Some "s3cret")
             (λ s, match s with
                   | AtSetTrigger => Some "connection was closed in the middle of operation"
                   | _ => None
                   end)
             (mk_datetime 2024 3 7 9 5 2 123) "u" in
  let out := serve (mk_request (Some "s3cret") POST_trigger_capture) e fresh_world in
  fst out = Raise (Error "connection was closed in the middle of operation")
  ∧ open_conns fresh_world = ∅
  ∧ open_conns (snd out) = {[ 0%nat ]}
  ∧ ¬ open_conns (snd out) ⊆ open_conns fresh_world.
Proof.
  cbv zeta. split; [reflexivity|]. split; [reflexivity|].
  assert (Hopen :
    open_conns (snd (serve (mk_request (Some "s3cret") POST_trigger_capture)
      (mk_env (Some "s3cret")
         (λ s, match s with
               | AtSetTrigger => Some "connection was closed in the middle of operation"
               | _ => None
               end)
         (mk_datetime 2024 3 7 9 5 2 123) "u") fresh_world))
    = {[ 0%nat ]}) by (vm_compute; reflexivity).
  split; [exact Hopen|]. rewrite Hopen. cbn. intros Hsub.
  apply (not_elem_of_empty (C:=gset nat) 0%nat), Hsub.
  by apply elem_of_singleton.
Qed.

(** C2, amended.  On every path on which no database statement fails, the
    request leaves no connection open that was not open before: the handle
    it got from [connect] has been closed when the handler returns.  This
    covers a refused credential, an empty upload, a failed connect and a
    failed blob write (none of which holds a connection) and every
    successful run. *)
Theorem connection_closed_when_statements_succeed
    (r : request) (e : env) (w : world) :
  statements_succeed e →
  open_conns (snd (serve r e w)) ⊆ open_conns w
  ∧ (next_conn w ∉ open_conns w →
     open_conns (snd (serve r e w)) = open_conns w).
Proof.
  intros Hst.
  assert (Hgoal : open_conns (snd (serve r e w)) = open_conns w
                  ∨ open_conns (snd (serve r e w))
                    = ({[next_conn w]} ∪ open_conns w) ∖ {[next_conn w]}).
  { destruct r as [[key|] ep]; run; [|by left].
    destruct (decide (Some key ≠ API_KEY e)); cbn; [by left|].
    destruct ep as [| |body|]; cbn.
    - destruct (fault e AtConnect); cbn; [by left|].
      use_statements Hst. cbn. by right.
    - destruct (fault e AtConnect); cbn; [by left|].
      use_statements Hst. cbn.
      destruct (seed_control_row _ !! 1) as [[|]|]; cbn;
        use_statements Hst; cbn; by right.
    - destruct (decide (body = [])); cbn; [by left|].
      destruct (fault e AtBlobPut); cbn; [by left|].
      destruct (fault e AtConnect); cbn; [by left|].
      use_statements Hst. cbn. by right.
    - destruct (fault e AtConnect); cbn; [by left|].
      use_statements Hst. cbn. by right. }
  destruct Hgoal as [-> | ->]; split; try done.
  - intros c. rewrite elem_of_difference, elem_of_union, elem_of_singleton.
    tauto.
  - intros Hfresh. apply set_eq. intros c.
    rewrite elem_of_difference, elem_of_union, elem_of_singleton.
    split; [tauto|]. intros Hc. split; [tauto|]. by intros ->.
Qed.

Lemma connection_closed_when_statements_succeed_witness :
  let e := calm (Some "s3cret") (mk_datetime 2024 3 7 9 5 2 123) "u" in
  let r := mk_request (Some "s3cret") GET_check_trigger in
  open_conns (snd (serve r e fresh_world)) ⊆ open_conns fresh_world
  ∧ (next_conn fresh_world ∉ open_conns fresh_world →
     open_conns (snd (serve r e fresh_world)) = open_conns fresh_world).
Proof.
  apply (connection_closed_when_statements_succeed
           (mk_request (Some "s3cret") GET_check_trigger)
           (calm (Some "s3cret") (mk_datetime 2024 3 7 9 5 2 123) "u")
           fresh_world).
  intros q. reflexivity.
Defined.

(** ** Errors of the database and of the blob store *)

(** C3, as written, fails for [trigger_capture] (and [check_trigger]), which
    have no [try].  When connecting fails, what reaches the caller is the
    [HTTPException] of [get_db_connection] with its fixed detail, and the
    text of the error is only printed.  When the [UPDATE] fails, the error
    leaves the handler uncaught. *)
Lemma trigger_capture_errors_are_not_caught :
  let refuse s := match s with AtConnect => Some "connection refused" | _ => None end in
  let deadlock s := match s with AtSetTrigger => Some "deadlock detected" | _ => None end in
  let t := mk_datetime 2024 3 7 9 5 2 123 in
  let r := mk_request (Some "s3cret") POST_trigger_capture in
  let out1 := serve r (mk_env (Some "s3cret") refuse t "u") fresh_world in
  let out2 := serve r (mk_env (Some "s3cret") deadlock t "u") fresh_world in
  fst out1 = Raise (HTTPException 500 "Could not connect to the database.")
  ∧ on_the_wire (fst out1)
    = mk_http 500 (JsonBody (JObject
        [("detail", JString "Could not connect to the database.")]))
  ∧ fst out1 ≠ Ok (error_response "connection refused")
  ∧ stdout (snd out1) = ["Database connection error: connection refused"]
  ∧ fst out2 = Raise (Error "deadlock detected")
  ∧ fst out2 ≠ Ok (error_response "deadlock detected")
  ∧ on_the_wire (fst out2) = mk_http 500 (TextBody "Internal Server Error").
Proof.
  cbv zeta. repeat split; try reflexivity; vm_compute; discriminate.
Qed.

(** C3, amended.  [upload_image] and [get_images] catch every exception:
    a failing blob write, [INSERT] or [SELECT] is answered 500 with the
    error's own text in the "error" field.  A connection that cannot be
    obtained is reported by [get_db_connection] as the fixed
    "Could not connect to the database." with status 500 in every
    endpoint: as the text of that exception in the "error" field of
    [upload_image] and [get_images], and as the exception itself from
    [trigger_capture] and [check_trigger]; the text of the underlying error
    is printed, not returned. *)
Theorem storage_errors_answered_500
    (e : env) (w : world) (body : list byte) (txt : string) :
  body ≠ [] →
  (fault e AtBlobPut = Some txt →
   fst (upload_image body e w) = Ok (error_response txt))
  ∧ (fault e AtBlobPut = None → fault e AtConnect = None →
     fault e AtSchema = None → fault e AtInsertImage = Some txt →
     fst (upload_image body e w) = Ok (error_response txt))
  ∧ (fault e AtConnect = None → fault e AtSchema = None →
     fault e AtReadImages = Some txt →
     fst (get_images e w) = Ok (error_response txt))
  ∧ (db_unreachable e txt →
     fst (get_images e w) = Ok (error_response (str could_not_connect))
     ∧ (fault e AtBlobPut = None →
        fst (upload_image body e w) = Ok (error_response (str could_not_connect)))
     ∧ fst (trigger_capture e w) = Raise could_not_connect
     ∧ fst (check_trigger e w) = Raise could_not_connect
     ∧ http_status (on_the_wire (Raise could_not_connect)) = 500
     ∧ stdout (snd (trigger_capture e w))
       = (stdout w ++ ["Database connection error: " +:+ txt])%list).
Proof.
  intros Hbody. repeat apply conj.
  - intros Hput. run. destruct (decide (body = [])); [done|]. cbn.
    rewrite Hput. reflexivity.
  - intros Hput Hc Hs Hins. run. destruct (decide (body = [])); [done|]. cbn.
    rewrite Hput. cbn. rewrite Hc. cbn. rewrite Hs. cbn. rewrite Hins.
    reflexivity.
  - intros Hc Hs Hsel. run. rewrite Hc. cbn. rewrite Hs. cbn. rewrite Hsel.
    reflexivity.
  - intros Hun. repeat apply conj; try reflexivity; try intros Hput;
      destruct Hun as [Hc | [Hc Hs]]; run;
      try (destruct (decide (body = [])); [done|]; cbn; rewrite Hput; cbn);
      rewrite Hc; cbn; rewrite ?Hs; reflexivity.
Qed.

Lemma storage_errors_answered_500_witness :
  fst (upload_image [x2a%byte]
         (mk_env (Some "s3cret")
            (λ s, match s with AtBlobPut => Some "blob store unavailable" | _ => None end)
            (mk_datetime 2024 3 7 9 5 2 123) "u")
         fresh_world)
  = Ok (error_response "blob store unavailable").
Proof.
  refine (proj1 (storage_errors_answered_500
           (mk_env (Some "s3cret")
              (λ s, match s with AtBlobPut => Some "blob store unavailable" | _ => None end)
              (mk_datetime 2024 3 7 9 5 2 123) "u")
           fresh_world [x2a%byte] "blob store unavailable" _) _).
  - discriminate.
  - reflexivity.
Defined.

(** ** The capture flag *)

Lemma seed_control_row_flag m :
  seed_control_row m !! 1 = Some (default false (m !! 1)).
Proof.
  unfold seed_control_row. destruct (m !! 1) as [b|] eqn:Hm; cbn.
  - exact Hm.
  - apply lookup_insert_eq.
Qed.

Lemma update_control_row_flag v m :
  is_Some (m !! 1) → update_control_row v m !! 1 = Some v.
Proof.
  intros [b Hb]. unfold update_control_row. rewrite Hb.
  apply lookup_insert_eq.
Qed.

Lemma default_control_lookup (w : world) :
  default ∅ (camera_control w) !! 1 = stored_flag w.
Proof. unfold stored_flag. by destruct (camera_control w). Qed.

(** ** Runs in which nothing fails *)

Section calm_runs.
Context (e : env) (Hcalm : no_faults e).

(** What [check_trigger] does when nothing fails, from any state. *)
Lemma check_trigger_calm (w : world) :
  let b := default false (stored_flag w) in
  let out := check_trigger e w in
  fst out = Ok (trigger_response b)
  ∧ stored_flag (snd out) = Some false
  ∧ issued (snd out)
    = (issued w ++ [CREATE_TABLE_QUERY; SELECT_trigger_capture]
       ++ (if b then [UPDATE_trigger_capture false] else []))%list
  ∧ (b = false →
     camera_control (snd out)
     = Some (seed_control_row (default ∅ (camera_control w)))).
Proof.
  cbv zeta. rewrite <- default_control_lookup.
  pose proof (seed_control_row_flag (default ∅ (camera_control w))) as Hseed.
  run. rewrite ?Hcalm. cbn. rewrite ?Hcalm. cbn.
  rewrite Hseed.
  destruct (default false (default ∅ (camera_control w) !! 1)); cbn.
  - rewrite ?Hcalm. cbn. unfold stored_flag. cbn.
    rewrite update_control_row_flag by (rewrite Hseed; eauto).
    repeat split; try done. by rewrite <- !app_assoc.
  - unfold stored_flag. cbn. rewrite Hseed.
    repeat split; try done. by rewrite <- !app_assoc.
Qed.

(** What [trigger_capture] does when nothing fails, from any state. *)
Lemma trigger_capture_calm (w : world) :
  let out := trigger_capture e w in
  fst out
  = Ok (mk_response
          (JObject [("message", JString "Capture triggered successfully.")])
          200)
  ∧ stored_flag (snd out) = Some true.
Proof.
  run. rewrite ?Hcalm. cbn. rewrite ?Hcalm. cbn.
  split; [done|]. unfold stored_flag. cbn.
  apply update_control_row_flag. rewrite seed_control_row_flag. eauto.
Qed.

(** What [upload_image] does with a non-empty body when nothing fails. *)
Lemma upload_image_calm (body : list byte) (w : world) :
  body ≠ [] →
  let out := upload_image body e w in
  fst out = Ok (uploaded_response (blob_url e))
  ∧ blobs (snd out)
    = (blobs w ++ [mk_blob (filename_of (utc_clock e)) body Public (blob_url e)])%list
  ∧ stored_rows (snd out)
    = (stored_rows w
       ++ [mk_image_row (upcoming_id w) (blob_url e) (utc_clock e)])%list
  ∧ issued (snd out)
    = (issued w ++ [CREATE_TABLE_QUERY;
                    INSERT_motion_image (blob_url e) (utc_clock e)])%list
  ∧ open_conns (snd out) = ({[next_conn w]} ∪ open_conns w) ∖ {[next_conn w]}.
Proof.
  intros Hbody. run. destruct (decide (body = [])); [done|]. cbn.
  rewrite ?Hcalm. cbn. rewrite ?Hcalm. cbn. rewrite ?Hcalm. cbn.
  unfold stored_rows, upcoming_id. cbn.
  destruct (motion_images w); cbn; repeat split; try done;
    by rewrite <- app_assoc.
Qed.

(** What [get_images] does when nothing fails. *)
Lemma get_images_calm (w : world) :
  fst (get_images e w)
  = Ok (images_response (merge_sort later_first (stored_rows w))).
Proof.
  run. rewrite ?Hcalm. cbn. rewrite ?Hcalm. cbn.
  unfold stored_rows. by destruct (motion_images w).
Qed.

End calm_runs.

(** C4. Whatever the flag holds, [check_trigger] answers with the value it
    read, and when that value is true the same call sends the clearing
    [UPDATE]; afterwards the stored flag is false. *)
Theorem check_trigger_returns_flag_then_clears
    (e : env) (w : world) (b : bool) :
  no_faults e →
  stored_flag w = Some b →
  let out := check_trigger e w in
  fst out = Ok (trigger_response b)
  ∧ stored_flag (snd out) = Some false
  ∧ issued (snd out)
    = (issued w ++ [CREATE_TABLE_QUERY; SELECT_trigger_capture]
       ++ (if b then [UPDATE_trigger_capture false] else []))%list.
Proof.
  intros Hcalm Hflag. cbv zeta.
  destruct (check_trigger_calm e Hcalm w) as (Hres & Hafter & Hsent & _).
  rewrite Hflag in Hres, Hsent. cbn in Hres, Hsent. auto.
Qed.

Lemma check_trigger_returns_flag_then_clears_witness :
  let e := calm (Some "s3cret") (mk_datetime 2024 3 7 9 5 2 123) "u" in
  let w := mk_world (Some (mk_images_table [] 1)) (Some {[1 := true]})
             [] ∅ 0%nat [] [] in
  let out := check_trigger e w in
  fst out = Ok (trigger_response true)
  ∧ stored_flag (snd out) = Some false
  ∧ issued (snd out)
    = (issued w ++ [CREATE_TABLE_QUERY; SELECT_trigger_capture]
       ++ [UPDATE_trigger_capture false])%list.
Proof.
  apply (check_trigger_returns_flag_then_clears
           (calm (Some "s3cret") (mk_datetime 2024 3 7 9 5 2 123) "u")
           (mk_world (Some (mk_images_table [] 1)) (Some {[1 := true]})
              [] ∅ 0%nat [] [])
           true).
  - intros s. reflexivity.
  - reflexivity.
Defined.

(** C5. On a store nobody has touched, [check_trigger] answers false.  After
    a [trigger_capture], from any state, the next [check_trigger] answers
    true and the one after it answers false. *)
Theorem manual_capture_is_polled_once (e0 e1 e2 e3 : env) (w : world) :
  no_faults e0 → no_faults e1 → no_faults e2 → no_faults e3 →
  fst (check_trigger e0 fresh_world) = Ok (trigger_response false)
  ∧ let w1 := snd (trigger_capture e1 w) in
    let w2 := snd (check_trigger e2 w1) in
    fst (trigger_capture e1 w)
    = Ok (mk_response
            (JObject [("message", JString "Capture triggered successfully.")])
            200)
    ∧ fst (check_trigger e2 w1) = Ok (trigger_response true)
    ∧ fst (check_trigger e3 w2) = Ok (trigger_response false).
Proof.
  intros H0 H1 H2 H3. split.
  - by destruct (check_trigger_calm e0 H0 fresh_world) as (Hres & _).
  - cbv zeta.
    destruct (trigger_capture_calm e1 H1 w) as (Hset & Hflag1).
    destruct (check_trigger_calm e2 H2 (snd (trigger_capture e1 w)))
      as (Hpoll1 & Hflag2 & _).
    destruct (check_trigger_calm e3 H3
                (snd (check_trigger e2 (snd (trigger_capture e1 w)))))
      as (Hpoll2 & _).
    rewrite Hflag1 in Hpoll1. rewrite Hflag2 in Hpoll2. auto.
Qed.

Lemma manual_capture_is_polled_once_witness :
  let e := calm (Some "s3cret") (mk_datetime 2024 3 7 9 5 2 123) "u" in
  fst (check_trigger e fresh_world) = Ok (trigger_response false)
  ∧ let w1 := snd (trigger_capture e fresh_world) in
    let w2 := snd (check_trigger e w1) in
    fst (trigger_capture e fresh_world)
    = Ok (mk_response
            (JObject [("message", JString "Capture triggered successfully.")])
            200)
    ∧ fst (check_trigger e w1) = Ok (trigger_response true)
    ∧ fst (check_trigger e w2) = Ok (trigger_response false).
Proof.
  apply (manual_capture_is_polled_once
           (calm (Some "s3cret") (mk_datetime 2024 3 7 9 5 2 123) "u")
           (calm (Some "s3cret") (mk_datetime 2024 3 7 9 5 2 123) "u")
           (calm (Some "s3cret") (mk_datetime 2024 3 7 9 5 2 123) "u")
           (calm (Some "s3cret") (mk_datetime 2024 3 7 9 5 2 123) "u")
           fresh_world); intros s; reflexivity.
Defined.

(** C10. Lines 73 to 80 of [check_trigger] on a table that has no row with
    id 1: [fetchrow] gives [None], the handler takes the flag to be false,
    sends no [UPDATE], raises nothing, closes the connection and answers
    false.  A clearing [UPDATE] that would fail is therefore never met. *)
Theorem check_trigger_without_row_answers_false
    (conn : nat) (e : env) (w : world) (m : gmap Z bool) :
  camera_control w = Some m →
  m !! 1 = None →
  fault e AtReadTrigger = None →
  let out := (record ← fetchrow conn; check_trigger_with conn record) e w in
  fst (fetchrow conn e w) = Ok None
  ∧ fst out = Ok (trigger_response false)
  ∧ issued (snd out) = (issued w ++ [SELECT_trigger_capture])%list
  ∧ camera_control (snd out) = camera_control w
  ∧ (conn ∉ open_conns (snd out))
  ∧ check_trigger_with conn None e w
    = (Ok (trigger_response false),
       mk_world (motion_images w) (camera_control w) (blobs w)
                (open_conns w ∖ {[conn]}) (next_conn w) (issued w) (stdout w)).
Proof.
  intros Hcc Hrow Hread. run. rewrite Hread, Hcc. cbn. rewrite Hcc. cbn.
  rewrite Hrow. cbn. repeat split; try done.
  rewrite elem_of_difference, elem_of_singleton. tauto.
Qed.

Lemma check_trigger_without_row_answers_false_witness :
  let e := mk_env (Some "s3cret")
             (λ s, match s with AtClearTrigger => Some "deadlock detected" | _ => None end)
             (mk_datetime 2024 3 7 9 5 2 123) "u" in
  let w := mk_world (Some (mk_images_table [] 1)) (Some ∅)
             [] {[ 0%nat ]} 1%nat [CREATE_TABLE_QUERY] [] in
  let out := (record ← fetchrow 0%nat; check_trigger_with 0%nat record) e w in
  fst (fetchrow 0%nat e w) = Ok None
  ∧ fst out = Ok (trigger_response false)
  ∧ issued (snd out) = (issued w ++ [SELECT_trigger_capture])%list
  ∧ camera_control (snd out) = camera_control w
  ∧ (0%nat ∉ open_conns (snd out))
  ∧ check_trigger_with 0%nat None e w
    = (Ok (trigger_response false),
       mk_world (motion_images w) (camera_control w) (blobs w)
                (open_conns w ∖ {[ 0%nat ]}) (next_conn w) (issued w) (stdout w)).
Proof.
  apply (check_trigger_without_row_answers_false 0%nat
           (mk_env (Some "s3cret")
              (λ s, match s with AtClearTrigger => Some "deadlock detected" | _ => None end)
              (mk_datetime 2024 3 7 9 5 2 123) "u")
           (mk_world (Some (mk_images_table [] 1)) (Some ∅)
              [] {[ 0%nat ]} 1%nat [CREATE_TABLE_QUERY] [])
           ∅); reflexivity.
Defined.

(** ** The control table *)

Ltac split_faults e :=
  repeat match goal with
         | |- context [fault e ?s] => destruct (fault e s) eqn:?; cbn
         end.

(** The control table after a request is the one before it, or that one
    seeded, or that one seeded and then updated in its row 1. *)
Lemma serve_control_cases (r : request) (e : env) (w : world) :
  let seeded := seed_control_row (default ∅ (camera_control w)) in
  camera_control (snd (serve r e w)) = camera_control w
  ∨ camera_control (snd (serve r e w)) = Some seeded
  ∨ ∃ v, camera_control (snd (serve r e w))
         = Some (update_control_row v seeded).
Proof.
  cbv zeta. destruct r as [[key|] ep]; run; [|by left].
  destruct (decide (Some key ≠ API_KEY e)); cbn; [by left|].
  destruct ep as [| |body|]; cbn.
  - split_faults e; eauto.
  - destruct (fault e AtConnect) eqn:?; cbn; [by left|].
    destruct (fault e AtSchema) eqn:?; cbn; [by left|].
    destruct (fault e AtReadTrigger) eqn:?; cbn; [eauto|].
    destruct (seed_control_row _ !! 1) as [[|]|]; cbn; split_faults e; eauto.
  - destruct (decide (body = [])); cbn; [by left|]. split_faults e; eauto.
  - split_faults e; eauto.
Qed.

Lemma get_db_connection_seeds (e : env) (w : world) (conn : nat) (w' : world) :
  get_db_connection e w = (Ok conn, w') →
  camera_control w'
  = Some (seed_control_row (default ∅ (camera_control w)))
  ∧ issued w' = (issued w ++ [CREATE_TABLE_QUERY])%list.
Proof.
  run. split_faults e; intros [= <- <-]; done.
Qed.

Lemma seeded_single (w : world) :
  camera_control w = None ∨ single_control_row w →
  ∃ b, seed_control_row (default ∅ (camera_control w)) = {[1 := b]}.
Proof.
  intros [-> | [b ->]]; cbn.
  - exists false. apply seed_control_row_empty.
  - exists b. apply seed_control_row_single.
Qed.

Lemma serve_keeps_control_row (r : request) (e : env) (w : world) :
  camera_control w = None ∨ single_control_row w →
  (camera_control (snd (serve r e w)) = None
   ∨ single_control_row (snd (serve r e w)))
  ∧ (single_control_row w → single_control_row (snd (serve r e w))).
Proof.
  intros Hw. destruct (seeded_single w Hw) as [b Hseed].
  destruct (serve_control_cases r e w) as [Hc | [Hc | [v Hc]]];
    cbv zeta in Hc; rewrite ?Hseed in Hc.
  - unfold single_control_row. rewrite Hc. split; [exact Hw | done].
  - split; [right|intros _]; by exists b.
  - rewrite update_control_row_single in Hc.
    split; [right|intros _]; by exists v.
Qed.

Lemma serve_all_snoc history r e w :
  serve_all (history ++ [(r, e)]) w = snd (serve r e (serve_all history w)).
Proof. unfold serve_all. by rewrite foldl_app. Qed.

(** C9. Start from a database without tables and serve any requests, with
    any faults.  From the first successful [get_db_connection] on, the
    control table holds exactly the row with id 1 (before that it does not
    exist): every successful [get_db_connection] has run the schema script,
    the script seeds the row ([FALSE]) when it is missing and changes
    nothing when it is there, and no request adds or removes a row. *)
Theorem control_table_keeps_one_row (history : list (request * env)) :
  let w := serve_all history fresh_world in
  (camera_control w = None ∨ single_control_row w)
  ∧ (∀ e conn w', get_db_connection e w = (Ok conn, w') →
       single_control_row w'
       ∧ issued w' = (issued w ++ [CREATE_TABLE_QUERY])%list)
  ∧ (∀ r e, single_control_row w → single_control_row (snd (serve r e w)))
  ∧ (∀ m : gmap Z bool,
       seed_control_row (seed_control_row m) = seed_control_row m
       ∧ (is_Some (m !! 1) → seed_control_row m = m)
       ∧ (m !! 1 = None → seed_control_row m = <[1 := false]> m)).
Proof.
  cbv zeta.
  assert (Hinv : camera_control (serve_all history fresh_world) = None
                 ∨ single_control_row (serve_all history fresh_world)).
  { induction history as [|[r e] history IH] using rev_ind.
    - by left.
    - rewrite serve_all_snoc. by apply serve_keeps_control_row. }
  split; [exact Hinv|]. split; [|split].
  - intros e conn w' Hconn.
    destruct (get_db_connection_seeds _ _ _ _ Hconn) as [Hcc Hsent].
    split; [|exact Hsent].
    destruct (seeded_single _ Hinv) as [b Hb].
    exists b. by rewrite Hcc, Hb.
  - intros r e. by apply serve_keeps_control_row.
  - intros m. split; [apply seed_control_row_idem|]. split.
    + intros [b Hb]. unfold seed_control_row. by rewrite Hb.
    + intros Hb. unfold seed_control_row. by rewrite Hb.
Qed.

Lemma control_table_keeps_one_row_witness :
  let e := calm (Some "s3cret") (mk_datetime 2024 3 7 9 5 2 123) "u" in
  let history := [(mk_request (Some "s3cret") POST_trigger_capture, e)] in
  single_control_row
    (snd (serve (mk_request (Some "s3cret") GET_check_trigger) e
            (serve_all history fresh_world))).
Proof.
  cbv zeta.
  destruct (control_table_keeps_one_row
              [(mk_request (Some "s3cret") POST_trigger_capture,
                calm (Some "s3cret") (mk_datetime 2024 3 7 9 5 2 123) "u")])
    as (_ & _ & Hkeep & _).
  apply Hkeep. exists true. reflexivity.
Defined.

(** ** Listing the images *)

Lemma lex_leb_total (a b : list Z) : lex_leb a b = true ∨ lex_leb b a = true.
Proof.
  revert b. induction a as [|x a IH]; intros [|y b]; cbn; auto.
  destruct (Z.ltb_spec x y), (Z.ltb_spec y x); auto; lia.
Qed.

Lemma lex_leb_trans (a b c : list Z) :
  lex_leb a b = true → lex_leb b c = true → lex_leb a c = true.
Proof.
  revert b c. induction a as [|x a IH]; intros [|y b] [|z c]; cbn; auto;
    try discriminate.
  destruct (Z.ltb_spec x y), (Z.ltb_spec y x), (Z.ltb_spec y z),
    (Z.ltb_spec z y), (Z.ltb_spec x z), (Z.ltb_spec z x);
    try discriminate; try lia; auto.
  apply IH.
Qed.

#[global] Instance later_first_total : Total later_first.
Proof. intros a b. unfold later_first, dt_leb. apply or_comm, lex_leb_total. Qed.

#[global] Instance later_first_trans : Transitive later_first.
Proof.
  intros a b c Hab Hbc. unfold later_first, dt_leb in *.
  eapply lex_leb_trans; eassumption.
Qed.

Lemma upload_all_rows (uploads : list (list byte * env)) (w : world) :
  Forall (λ u, u.1 ≠ [] ∧ no_faults u.2) uploads →
  map url_and_time (stored_rows (upload_all uploads w))
  = (map url_and_time (stored_rows w)
     ++ map (λ u, (blob_url u.2, utc_clock u.2)) uploads)%list.
Proof.
  intros Hall. revert w.
  induction Hall as [|[body e] uploads [Hbody Hcalm] _ IH]; intros w; cbn.
  - by rewrite app_nil_r.
  - unfold upload_all in *. cbn. rewrite IH.
    destruct (upload_image_calm e Hcalm body w Hbody) as (_ & _ & Hrows & _).
    rewrite Hrows, map_app, <- app_assoc. reflexivity.
Qed.

(** C7. [get_images] answers with every row of [motion_images], the latest
    [captured_at] first, nothing left out and nothing added; with no rows
    the list is empty; after N uploads on an untouched store it has N
    entries, one for each upload. *)
Theorem get_images_lists_all_newest_first
    (e : env) (w : world) (uploads : list (list byte * env)) :
  no_faults e →
  Forall (λ u, u.1 ≠ [] ∧ no_faults u.2) uploads →
  (∃ listed,
      fst (get_images e w) = Ok (images_response listed)
      ∧ listed ≡ₚ stored_rows w
      ∧ StronglySorted later_first listed
      ∧ length listed = length (stored_rows w))
  ∧ (stored_rows w = [] → fst (get_images e w) = Ok (images_response []))
  ∧ (∃ listed,
      fst (get_images e (upload_all uploads fresh_world))
      = Ok (images_response listed)
      ∧ length listed = length uploads
      ∧ StronglySorted later_first listed
      ∧ map url_and_time listed
        ≡ₚ map (λ u, (blob_url u.2, utc_clock u.2)) uploads).
Proof.
  intros Hcalm Hall. split; [|split].
  - exists (merge_sort later_first (stored_rows w)).
    split; [by apply get_images_calm|]. split; [apply merge_sort_Permutation|].
    split; [apply StronglySorted_merge_sort; apply _|].
    by rewrite merge_sort_Permutation.
  - intros Hnone. rewrite get_images_calm by done. by rewrite Hnone.
  - set (w' := upload_all uploads fresh_world).
    exists (merge_sort later_first (stored_rows w')).
    pose proof (upload_all_rows uploads fresh_world Hall) as Hrows.
    cbn in Hrows. fold w' in Hrows.
    split; [by apply get_images_calm|]. split.
    + rewrite merge_sort_Permutation.
      rewrite <- (length_map url_and_time), Hrows. apply length_map.
    + split; [apply StronglySorted_merge_sort; apply _|].
      rewrite <- Hrows. apply Permutation_map, merge_sort_Permutation.
Qed.

Lemma get_images_lists_all_newest_first_witness :
  let e := calm (Some "s3cret") (mk_datetime 2024 3 7 9 5 2 123) "u" in
  let uploads :=
    [([x2a%byte], calm (Some "s3cret") (mk_datetime 2024 3 7 9 5 2 123) "a");
     ([x2b%byte], calm (Some "s3cret") (mk_datetime 2024 3 7 9 5 3 0) "b")] in
  ∃ listed,
    fst (get_images e (upload_all uploads fresh_world))
    = Ok (images_response listed)
    ∧ length listed = length uploads
    ∧ StronglySorted later_first listed
    ∧ map url_and_time listed
      ≡ₚ map (λ u, (blob_url u.2, utc_clock u.2)) uploads.
Proof.
  cbv zeta.
  refine (proj2 (proj2 (get_images_lists_all_newest_first
    (calm (Some "s3cret") (mk_datetime 2024 3 7 9 5 2 123) "u")
    fresh_world
    [([x2a%byte], calm (Some "s3cret") (mk_datetime 2024 3 7 9 5 2 123) "a");
     ([x2b%byte], calm (Some "s3cret") (mk_datetime 2024 3 7 9 5 3 0) "b")]
    _ _))).
  - intros s. reflexivity.
  - repeat constructor; discriminate.
Defined.

(** ** The file name of an upload *)

Lemma length_zero_padded (w : nat) (n : Z) : length (zero_padded w n) = w.
Proof.
  revert n. induction w as [|w IH]; intros n; cbn; [done|].
  rewrite length_app, IH. cbn. lia.
Qed.

Lemma digit_value_digit (d : Z) : (0 ≤ d < 10)%Z → digit_value (digit d) = Some d.
Proof.
  intros Hd.
  assert (Hcases : d = 0 ∨ d = 1 ∨ d = 2 ∨ d = 3 ∨ d = 4 ∨ d = 5 ∨ d = 6
                   ∨ d = 7 ∨ d = 8 ∨ d = 9) by lia.
  repeat destruct Hcases as [-> | Hcases]; try reflexivity.
  subst d. reflexivity.
Qed.

Lemma number_from_snoc (acc : Z) (l : list ascii) (c : ascii) :
  number_from acc (l ++ [c])
  = v ← number_from acc l; d ← digit_value c; Some (v * 10 + d).
Proof.
  revert acc. induction l as [|x l IH]; intros acc; cbn.
  - by destruct (digit_value c).
  - destruct (digit_value x); cbn; [apply IH|done].
Qed.

Lemma number_from_zero_padded (w : nat) (n acc : Z) :
  (0 ≤ n < 10 ^ Z.of_nat w)%Z →
  number_from acc (zero_padded w n) = Some (acc * 10 ^ Z.of_nat w + n).
Proof.
  revert n. induction w as [|w IH]; intros n Hn.
  - cbn in *. f_equal. lia.
  - rewrite Nat2Z.inj_succ, Z.pow_succ_r in * by lia.
    cbn [zero_padded]. rewrite number_from_snoc.
    rewrite IH by (split; [apply Z.div_pos; lia | apply Z.div_lt_upper_bound; lia]).
    cbn. rewrite digit_value_digit by (apply Z.mod_pos_bound; lia).
    cbn. f_equal. pose proof (Z.div_mod n 10). lia.
Qed.

Lemma read_field_zero_padded (w : nat) (n : Z) (rest : list ascii) :
  (0 ≤ n < 10 ^ Z.of_nat w)%Z →
  read_field w (zero_padded w n ++ rest) = Some (n, rest).
Proof.
  intros Hn. unfold read_field.
  rewrite take_app_length' by (by rewrite length_zero_padded).
  rewrite drop_app_length' by (by rewrite length_zero_padded).
  rewrite length_zero_padded. destruct (decide (w = w)); [|done].
  rewrite number_from_zero_padded by done. cbn. do 2 f_equal; lia.
Qed.

Lemma read_literal_here (s : string) (rest : list ascii) :
  read_literal s (list_ascii_of_string s ++ rest) = Some rest.
Proof.
  unfold read_literal. cbv zeta. rewrite take_app_length, drop_app_length.
  by destruct (decide (list_ascii_of_string s = list_ascii_of_string s)).
Qed.

Lemma list_ascii_of_string_app (s1 s2 : string) :
  list_ascii_of_string (s1 +:+ s2)
  = (list_ascii_of_string s1 ++ list_ascii_of_string s2)%list.
Proof. induction s1 as [|c s1 IH]; simpl; [done|]. by f_equal. Qed.

#[local] Arguments zero_padded : simpl never.
#[local] Arguments read_field : simpl never.
#[local] Arguments read_literal : simpl never.
#[local] Arguments list_ascii_of_string : simpl never.

(** The name made from a timestamp carries that timestamp, to the
    microsecond. *)
Lemma embedded_timestamp_filename_of (t : datetime) :
  valid_datetime t → embedded_timestamp (filename_of t) = Some t.
Proof.
  intros (Hy & Hmo & Hd & Hh & Hmi & Hs & Hus).
  unfold embedded_timestamp, filename_of, strftime.
  rewrite !list_ascii_of_string_app, list_ascii_of_string_of_list_ascii.
  unfold strftime_chars, filename_format. cbn [map concat directive_chars].
  rewrite <- !app_assoc. rewrite app_nil_l.
  rewrite read_literal_here. cbn [mbind option_bind].
  rewrite read_field_zero_padded by (cbn; lia). cbn [mbind option_bind].
  rewrite read_field_zero_padded by (cbn; lia). cbn [mbind option_bind].
  rewrite read_field_zero_padded by (cbn; lia). cbn [mbind option_bind].
  change ([ "_"%char ]) with (list_ascii_of_string "_").
  rewrite read_literal_here. cbn [mbind option_bind].
  rewrite read_field_zero_padded by (cbn; lia). cbn [mbind option_bind].
  rewrite read_field_zero_padded by (cbn; lia). cbn [mbind option_bind].
  rewrite read_field_zero_padded by (cbn; lia). cbn [mbind option_bind].
  rewrite read_literal_here. cbn [mbind option_bind].
  rewrite read_field_zero_padded by (cbn; lia). cbn [mbind option_bind].
  rewrite <- (app_nil_r (list_ascii_of_string ".jpg")).
  rewrite read_literal_here. cbn [mbind option_bind].
  destruct (decide (@nil ascii = [])); [|done]. by destruct t.
Qed.

(** C6. A non-empty upload, when nothing fails: the name is
    [motion-capture-YYYYMMDD_HHMMSS_ffffff.jpg] made from the UTC clock, the
    bytes are put under that name with public access, one row is added to
    [motion_images] with the URL the blob store gave and the same instant,
    and the answer is 201 with that URL.  The instant read back from the
    name is the row's [captured_at]. *)
Theorem upload_image_stores_blob_and_row
    (body : list byte) (e : env) (w : world) :
  body ≠ [] → no_faults e → valid_datetime (utc_clock e) →
  let out := upload_image body e w in
  let row := mk_image_row (upcoming_id w) (blob_url e) (utc_clock e) in
  fst out = Ok (uploaded_response (blob_url e))
  ∧ http_status (on_the_wire (fst out)) = 201
  ∧ blobs (snd out)
    = (blobs w
       ++ [mk_blob (filename_of (utc_clock e)) body Public (blob_url e)])%list
  ∧ stored_rows (snd out) = (stored_rows w ++ [row])%list
  ∧ embedded_timestamp (filename_of (utc_clock e)) = Some (captured_at row)
  ∧ String.length (filename_of (utc_clock e)) = 41%nat
  ∧ filename_of (utc_clock e)
    = "motion-capture-"
      +:+ strftime [dY; dm; dd] (utc_clock e) +:+ "_"
      +:+ strftime [dH; dM; dS] (utc_clock e) +:+ "_"
      +:+ strftime [df] (utc_clock e) +:+ ".jpg".
Proof.
  intros Hbody Hcalm Hvalid. cbv zeta.
  destruct (upload_image_calm e Hcalm body w Hbody)
    as (Hres & Hblobs & Hrows & _).
  pose proof (embedded_timestamp_filename_of _ Hvalid) as Hname.
  rewrite Hres. repeat split; done.
Qed.

Lemma upload_image_stores_blob_and_row_witness :
  let e := calm (Some "s3cret") (mk_datetime 2024 3 7 9 5 2 123)
             "https://store.example/motion-capture-20240307_090502_000123.jpg" in
  let out := upload_image [x2a%byte] e fresh_world in
  fst out = Ok (uploaded_response (blob_url e))
  ∧ http_status (on_the_wire (fst out)) = 201
  ∧ blobs (snd out)
    = [mk_blob "motion-capture-20240307_090502_000123.jpg" [x2a%byte] Public
         (blob_url e)]
  ∧ stored_rows (snd out) = [mk_image_row 1 (blob_url e) (utc_clock e)]
  ∧ embedded_timestamp "motion-capture-20240307_090502_000123.jpg"
    = Some (mk_datetime 2024 3 7 9 5 2 123).
Proof.
  cbv zeta.
  destruct (upload_image_stores_blob_and_row [x2a%byte]
    (calm (Some "s3cret") (mk_datetime 2024 3 7 9 5 2 123)
       "https://store.example/motion-capture-20240307_090502_000123.jpg")
    fresh_world)
    as (Hres & Hstatus & Hblobs & Hrows & Hname & _).
  - discriminate.
  - intros s. reflexivity.
  - unfold valid_datetime. cbn. lia.
  - repeat split; assumption.
Defined.

(** ** What the handlers leave alone *)

Lemma default_rows (w : world) :
  rows (default (mk_images_table [] 1) (motion_images w)) = stored_rows w.
Proof. unfold stored_rows. by destruct (motion_images w). Qed.

Lemma pending_seeded (w : world) :
  default false (seed_control_row (default ∅ (camera_control w)) !! 1)
  = pending w.
Proof.
  rewrite seed_control_row_flag. cbn. unfold pending.
  by rewrite default_control_lookup.
Qed.

Lemma seeded_lookup (w : world) :
  seed_control_row (default ∅ (camera_control w)) !! 1 = Some (pending w).
Proof.
  rewrite seed_control_row_flag. unfold pending.
  by rewrite default_control_lookup.
Qed.

Ltac tidy :=
  unfold pending, stored_flag, stored_rows; cbn;
  rewrite ?default_rows, ?seeded_lookup; cbn;
  fold (stored_rows) (stored_flag) (pending).

(** X1. [get_db_connection], fault by fault.  It hands out the new handle
    exactly when neither connecting nor the schema script fails.  Otherwise
    it prints the error and raises the fixed 500; a failed connect opens
    nothing, a failed schema script leaves the connection it opened open.
    In no case does it change a stored row, a blob or what a poll reads. *)
Theorem get_db_connection_outcomes (e : env) (w : world) :
  let out := get_db_connection e w in
  ((fault e AtConnect = None ∧ fault e AtSchema = None
    ∧ fst out = Ok (next_conn w)
    ∧ open_conns (snd out) = {[next_conn w]} ∪ open_conns w
    ∧ issued (snd out) = (issued w ++ [CREATE_TABLE_QUERY])%list
    ∧ stdout (snd out) = stdout w)
   ∨ (∃ txt, fault e AtConnect = Some txt
      ∧ fst out = Raise could_not_connect
      ∧ open_conns (snd out) = open_conns w
      ∧ issued (snd out) = issued w
      ∧ stdout (snd out)
        = (stdout w ++ ["Database connection error: " +:+ txt])%list)
   ∨ (∃ txt, fault e AtConnect = None ∧ fault e AtSchema = Some txt
      ∧ fst out = Raise could_not_connect
      ∧ open_conns (snd out) = {[next_conn w]} ∪ open_conns w
      ∧ issued (snd out) = (issued w ++ [CREATE_TABLE_QUERY])%list
      ∧ stdout (snd out)
        = (stdout w ++ ["Database connection error: " +:+ txt])%list))
  ∧ stored_rows (snd out) = stored_rows w
  ∧ pending (snd out) = pending w
  ∧ blobs (snd out) = blobs w.
Proof.
  run. destruct (fault e AtConnect) as [txt|] eqn:Hc; cbn.
  - split; [right; left; exists txt; done|]. done.
  - destruct (fault e AtSchema) as [txt|] eqn:Hs; cbn.
    + split; [right; right; exists txt; done|]. done.
    + split; [left; done|]. tidy. done.
Qed.




(** X5. The orphaned blob.  A non-empty upload whose blob write succeeds and
    whose database part fails (connect, schema script or [INSERT]) answers
    500 and leaves the blob in the store with no row for it; nothing removes
    the blob. *)
Theorem upload_image_database_failure_orphans_blob
    (body : list byte) (e : env) (w : world) (txt : string) :
  body ≠ [] →
  fault e AtBlobPut = None →
  db_unreachable e txt
  ∨ (fault e AtConnect = None ∧ fault e AtSchema = None
     ∧ fault e AtInsertImage = Some txt) →
  let out := upload_image body e w in
  (∃ resp, fst out = Ok resp ∧ status_code resp = 500)
  ∧ blobs (snd out) = (blobs w ++ [blob_of body e])%list
  ∧ stored_rows (snd out) = stored_rows w.
Proof.
  intros Hbody Hput Hdb. run.
  destruct (decide (body = [])); [done|]. cbn. rewrite Hput. cbn.
  destruct Hdb as [[Hc | [Hc Hs]] | (Hc & Hs & Hi)];
    rewrite Hc; cbn; rewrite ?Hs; cbn; rewrite ?Hi; cbn;
    (split; [eauto|]); tidy; done.
Qed.

Lemma upload_image_database_failure_orphans_blob_witness :
  let e := mk_env (Some "s3cret")
             (λ s, match s with AtInsertImage => Some "disk full" | _ => None end)
             (mk_datetime 2024 3 7 9 5 2 123) "https://store.example/a.jpg" in
  let out := upload_image [x2a%byte] e fresh_world in
  (∃ resp, fst out = Ok resp ∧ status_code resp = 500)
  ∧ blobs (snd out) = (blobs fresh_world ++ [blob_of [x2a%byte] e])%list
  ∧ stored_rows (snd out) = stored_rows fresh_world.
Proof.
  apply (upload_image_database_failure_orphans_blob [x2a%byte]
    (mk_env (Some "s3cret")
       (λ s, match s with AtInsertImage => Some "disk full" | _ => None end)
       (mk_datetime 2024 3 7 9 5 2 123) "https://store.example/a.jpg")
    fresh_world "disk full").
  - discriminate.
  - reflexivity.
  - right. repeat split; reflexivity.
Defined.


(** ** Whole requests *)

#[global] Instance bad_key_dec (r : request) (e : env) : Decision (bad_key r e).
Proof. unfold bad_key. apply _. Defined.





Lemma serve_images_cases (r : request) (e : env) (w : world) :
  let w' := snd (serve r e w) in
  (stored_rows w' = stored_rows w ∧ blobs w' = blobs w)
  ∨ (∃ body,
       blobs w' = (blobs w ++ [blob_of body e])%list
       ∧ (stored_rows w' = stored_rows w
          ∨ stored_rows w' = (stored_rows w ++ [row_of e w])%list)).
Proof.
  cbv zeta. destruct r as [[key|] ep]; run; [|by left].
  destruct (decide (Some key ≠ API_KEY e)); cbn; [by left|].
  destruct ep as [| |body|]; cbn.
  - split_faults e; left; tidy; done.
  - destruct (fault e AtConnect) eqn:?; cbn; [by left|].
    destruct (fault e AtSchema) eqn:?; cbn; [by left|].
    destruct (fault e AtReadTrigger) eqn:?; cbn; [left; tidy; done|].
    destruct (seed_control_row _ !! 1) as [[|]|]; cbn; split_faults e;
      left; tidy; done.
  - destruct (decide (body = [])); cbn; [by left|].
    destruct (fault e AtBlobPut) eqn:?; cbn; [by left|].
    right. exists body. split_faults e; tidy; split; auto.
    right. unfold row_of, upcoming_id, stored_rows.
    by destruct (motion_images w).
  - split_faults e; left; tidy; done.
Qed.

(** X8. No request removes or rewrites an image row or a blob: over any
    run of requests, with any faults, the rows and the blobs there were are
    a prefix of the rows and the blobs there are. *)
Theorem rows_and_blobs_only_grow
    (history : list (request * env)) (w : world) :
  stored_rows w `prefix_of` stored_rows (serve_all history w)
  ∧ blobs w `prefix_of` blobs (serve_all history w).
Proof.
  induction history as [|[r e] history [IHr IHb]] using rev_ind.
  - done.
  - rewrite serve_all_snoc.
    destruct (serve_images_cases r e (serve_all history w))
      as [[-> ->] | (body & -> & [-> | ->])]; cbv zeta; split;
      try done; by apply prefix_app_r.
Qed.

(** X9. Every image row has its blob.  If each row has a public blob that
    was written under the name made from the row's instant and got the
    row's URL, the same holds after any run of requests, with any faults:
    a row is only ever inserted after its blob was written. *)
Theorem every_row_keeps_its_blob
    (history : list (request * env)) (w : world) :
  Forall (row_has_blob w) (stored_rows w) →
  Forall (row_has_blob (serve_all history w))
         (stored_rows (serve_all history w)).
Proof.
  intros Hw. induction history as [|[r e] history IH] using rev_ind; [done|].
  rewrite serve_all_snoc.
  set (w1 := serve_all history w) in *.
  assert (Hkeep : ∀ b row,
            row_has_blob w1 row →
            blobs (snd (serve r e w1)) = (blobs w1 ++ [b])%list →
            row_has_blob (snd (serve r e w1)) row).
  { intros b row (b0 & Hin & Hrest) Hb. exists b0. rewrite Hb.
    split; [|done]. apply elem_of_app. by left. }
  destruct (serve_images_cases r e w1)
    as [[Hr Hb] | (body & Hb & [Hr | Hr])]; cbv zeta in *; rewrite Hr.
  - eapply Forall_impl; [exact IH|].
    intros row (b0 & Hin & Hrest). exists b0. by rewrite Hb.
  - eapply Forall_impl; [exact IH|]. intros row Hrow. by eapply Hkeep.
  - apply Forall_app. split.
    + eapply Forall_impl; [exact IH|]. intros row Hrow. by eapply Hkeep.
    + apply Forall_singleton. exists (blob_of body e). rewrite Hb.
      split; [|done]. apply elem_of_app. right. by apply list_elem_of_singleton.
Qed.

Lemma every_row_keeps_its_blob_witness :
  let e := calm (Some "s3cret") (mk_datetime 2024 3 7 9 5 2 123)
             "https://store.example/a.jpg" in
  let history := [(mk_request (Some "s3cret") (POST_upload [x2a%byte]), e);
                  (mk_request (Some "s3cret") GET_check_trigger, e)] in
  Forall (row_has_blob (serve_all history fresh_world))
         (stored_rows (serve_all history fresh_world)).
Proof.
  apply (every_row_keeps_its_blob
    [(mk_request (Some "s3cret") (POST_upload [x2a%byte]),
      calm (Some "s3cret") (mk_datetime 2024 3 7 9 5 2 123)
        "https://store.example/a.jpg");
     (mk_request (Some "s3cret") GET_check_trigger,
      calm (Some "s3cret") (mk_datetime 2024 3 7 9 5 2 123)
        "https://store.example/a.jpg")]
    fresh_world).
  apply Forall_nil_2.
Defined.

Ltac footprint :=
  cbn; split;
  [ intros c; rewrite ?elem_of_difference, ?elem_of_union; tauto
  | first [ left; reflexivity
          | right; rewrite <- ?app_assoc; cbn; eexists;
            split; [reflexivity | cbn; lia] ] ].

(** X10. The footprint of a request, with any faults: it opens at most one
    connection (the next handle), and it sends either nothing or the schema
    script first and then at most two statements.  No statement of a
    handler is ever sent before the schema script of the same request. *)
Theorem request_footprint (r : request) (e : env) (w : world) :
  let w' := snd (serve r e w) in
  open_conns w' ⊆ {[next_conn w]} ∪ open_conns w
  ∧ (issued w' = issued w
     ∨ ∃ rest, issued w' = (issued w ++ CREATE_TABLE_QUERY :: rest)%list
               ∧ (length rest ≤ 2)%nat).
Proof.
  cbv zeta. destruct r as [[key|] ep]; run; [|footprint].
  destruct (decide (Some key ≠ API_KEY e)); cbn; [footprint|].
  destruct ep as [| |body|]; cbn.
  - split_faults e; footprint.
  - destruct (fault e AtConnect) eqn:?; cbn; [footprint|].
    destruct (fault e AtSchema) eqn:?; cbn; [footprint|].
    destruct (fault e AtReadTrigger) eqn:?; cbn; [footprint|].
    destruct (seed_control_row _ !! 1) as [[|]|]; cbn; split_faults e;
      footprint.
  - destruct (decide (body = [])); cbn; [footprint|].
    split_faults e; footprint.
  - split_faults e; footprint.
Qed.

Lemma trigger_all_snoc (envs : list env) (e : env) (w : world) :
  trigger_all (envs ++ [e]) w = snd (trigger_capture e (trigger_all envs w)).
Proof. unfold trigger_all. by rewrite foldl_app. Qed.

(** X11. The flag is one slot, not a counter: after any positive number of
    [trigger_capture] calls in a row, from any state, the next
    [check_trigger] answers true and the one after it answers false. *)
Theorem repeated_triggers_are_polled_once
    (envs : list env) (e1 e2 : env) (w : world) :
  envs ≠ [] → Forall no_faults envs → no_faults e1 → no_faults e2 →
  let w1 := trigger_all envs w in
  fst (check_trigger e1 w1) = Ok (trigger_response true)
  ∧ fst (check_trigger e2 (snd (check_trigger e1 w1)))
    = Ok (trigger_response false).
Proof.
  intros Hne Hall H1 H2. cbv zeta.
  assert (Hflag : stored_flag (trigger_all envs w) = Some true).
  { destruct envs as [|e0 envs0] using rev_ind; [done|].
    rewrite Forall_app, Forall_singleton in Hall. destruct Hall as [_ He0].
    rewrite trigger_all_snoc.
    by destruct (trigger_capture_calm e0 He0 (trigger_all envs0 w)). }
  destruct (check_trigger_calm e1 H1 (trigger_all envs w))
    as (Hpoll1 & Hflag1 & _).
  destruct (check_trigger_calm e2 H2
              (snd (check_trigger e1 (trigger_all envs w))))
    as (Hpoll2 & _).
  rewrite Hflag in Hpoll1. rewrite Hflag1 in Hpoll2. auto.
Qed.

Lemma repeated_triggers_are_polled_once_witness :
  let e := calm (Some "s3cret") (mk_datetime 2024 3 7 9 5 2 123) "u" in
  let w1 := trigger_all [e; e; e] fresh_world in
  fst (check_trigger e w1) = Ok (trigger_response true)
  ∧ fst (check_trigger e (snd (check_trigger e w1)))
    = Ok (trigger_response false).
Proof.
  apply (repeated_triggers_are_polled_once
    [calm (Some "s3cret") (mk_datetime 2024 3 7 9 5 2 123) "u";
     calm (Some "s3cret") (mk_datetime 2024 3 7 9 5 2 123) "u";
     calm (Some "s3cret") (mk_datetime 2024 3 7 9 5 2 123) "u"]
    (calm (Some "s3cret") (mk_datetime 2024 3 7 9 5 2 123) "u")
    (calm (Some "s3cret") (mk_datetime 2024 3 7 9 5 2 123) "u")
    fresh_world).
  - discriminate.
  - repeat constructor.
  - intros s. reflexivity.
  - intros s. reflexivity.
Defined.



Lemma filter_none {A} (P : A → Prop) `{!∀ x, Decision (P x)} (l : list A) :
  Forall (λ x, ¬ P x) l → filter P l = [].
Proof.
  induction 1 as [|x l Hx _ IH]; [done|].
  rewrite filter_cons. by destruct (decide (P x)).
Qed.

(** X13. Upload, then list.  After a successful upload whose URL is not yet
    in the table, the listing has exactly one entry with that URL, and it
    carries the URL and the [isoformat] of the instant the file name was
    made from. *)
Theorem uploaded_image_is_listed_once
    (body : list byte) (e e' : env) (w : world) :
  body ≠ [] → no_faults e → no_faults e' →
  blob_url e ∉ map image_url (stored_rows w) →
  let w1 := snd (upload_image body e w) in
  ∃ listed,
    fst (get_images e' w1) = Ok (images_response listed)
    ∧ filter (λ r, image_url r = blob_url e) listed = [row_of e w]
    ∧ image_json (row_of e w)
      = JObject [("url", JString (blob_url e));
                 ("timestamp", JString (isoformat (utc_clock e)))]
    ∧ pathname (blob_of body e) = filename_of (captured_at (row_of e w)).
Proof.
  intros Hbody Hcalm Hcalm' Hnew. cbv zeta.
  destruct (upload_image_calm e Hcalm body w Hbody) as (_ & _ & Hrows & _).
  exists (merge_sort later_first (stored_rows (snd (upload_image body e w)))).
  split; [apply get_images_calm, Hcalm'|]. split; [|done].
  apply Permutation_singleton_r.
  rewrite merge_sort_Permutation, Hrows, filter_app.
  rewrite filter_none.
  - rewrite app_nil_l. by rewrite (filter_singleton_True _ _ []).
  - apply Forall_forall. intros row Hrow Hurl. apply Hnew.
    rewrite <- Hurl. apply list_elem_of_fmap. by exists row.
Qed.

Lemma uploaded_image_is_listed_once_witness :
  let e := calm (Some "s3cret") (mk_datetime 2024 3 7 9 5 2 123)
             "https://store.example/a.jpg" in
  let w1 := snd (upload_image [x2a%byte] e fresh_world) in
  ∃ listed,
    fst (get_images e w1) = Ok (images_response listed)
    ∧ filter (λ r, image_url r = blob_url e) listed = [row_of e fresh_world]
    ∧ image_json (row_of e fresh_world)
      = JObject [("url", JString (blob_url e));
                 ("timestamp", JString (isoformat (utc_clock e)))]
    ∧ pathname (blob_of [x2a%byte] e)
      = filename_of (captured_at (row_of e fresh_world)).
Proof.
  apply (uploaded_image_is_listed_once [x2a%byte]
    (calm (Some "s3cret") (mk_datetime 2024 3 7 9 5 2 123)
       "https://store.example/a.jpg")
    (calm (Some "s3cret") (mk_datetime 2024 3 7 9 5 2 123)
       "https://store.example/a.jpg")
    fresh_world).
  - discriminate.
  - intros s. reflexivity.
  - intros s. reflexivity.
  - cbn. apply not_elem_of_nil.
Defined.

(** ** Names and timestamps *)

(** X14. Uploads at different instants get different file names: on
    timestamps with a four-digit year, [filename_of] is injective, down to
    the microsecond. *)
Theorem filename_of_distinguishes_instants (t1 t2 : datetime) :
  valid_datetime t1 → valid_datetime t2 →
  t1 ≠ t2 → filename_of t1 ≠ filename_of t2.
Proof.
  intros H1 H2 Hne Hname. apply Hne.
  pose proof (embedded_timestamp_filename_of t1 H1) as Hback1.
  pose proof (embedded_timestamp_filename_of t2 H2) as Hback2.
  rewrite Hname, Hback2 in Hback1. congruence.
Qed.

Lemma filename_of_distinguishes_instants_witness :
  filename_of (mk_datetime 2024 3 7 9 5 2 123)
  ≠ filename_of (mk_datetime 2024 3 7 9 5 2 124).
Proof.
  apply (filename_of_distinguishes_instants
           (mk_datetime 2024 3 7 9 5 2 123) (mk_datetime 2024 3 7 9 5 2 124)).
  - unfold valid_datetime. cbn. lia.
  - unfold valid_datetime. cbn. lia.
  - discriminate.
Defined.

Lemma read_fraction_absent (rest : list ascii) :
  read_fraction (list_ascii_of_string "+00:00" ++ rest)
  = Some (0, (list_ascii_of_string "+00:00" ++ rest)%list).
Proof. reflexivity. Qed.

Lemma read_fraction_present (us : Z) (rest : list ascii) :
  (0 ≤ us < 10 ^ 6)%Z →
  read_fraction (list_ascii_of_string "." ++ zero_padded 6 us ++ rest)
  = Some (us, rest).
Proof.
  intros Hus. change (list_ascii_of_string ".") with ["."%char].
  cbn [app read_fraction].
  destruct (decide ("."%char = "."%char)); [|done].
  by apply read_field_zero_padded.
Qed.

(** X15. The timestamp string of a listing entry reads back to the stored
    instant, whether [isoformat] prints the fraction (microsecond not zero,
    32 characters) or leaves it out (microsecond zero, 25 characters); it is
    the instant the file name carries. *)
Theorem isoformat_reads_back (t : datetime) :
  valid_datetime t →
  timestamp_of_isoformat (isoformat t) = Some t
  ∧ timestamp_of_isoformat (isoformat t) = embedded_timestamp (filename_of t)
  ∧ String.length (isoformat t)
    = if decide (microsecond t = 0) then 25%nat else 32%nat.
Proof.
  intros Hvalid.
  assert (Hback : timestamp_of_isoformat (isoformat t) = Some t).
  { destruct Hvalid as (Hy & Hmo & Hd & Hh & Hmi & Hs & Hus).
    unfold timestamp_of_isoformat, isoformat, strftime.
    rewrite !list_ascii_of_string_app, list_ascii_of_string_of_list_ascii.
    unfold strftime_chars. cbn [map concat directive_chars].
    rewrite <- !app_assoc. rewrite app_nil_l.
    change (["-"%char]) with (list_ascii_of_string "-").
    change (["T"%char]) with (list_ascii_of_string "T").
    change ([":"%char]) with (list_ascii_of_string ":").
    rewrite read_field_zero_padded by (cbn; lia). cbn [mbind option_bind].
    rewrite read_literal_here. cbn [mbind option_bind].
    rewrite read_field_zero_padded by (cbn; lia). cbn [mbind option_bind].
    rewrite read_literal_here. cbn [mbind option_bind].
    rewrite read_field_zero_padded by (cbn; lia). cbn [mbind option_bind].
    rewrite read_literal_here. cbn [mbind option_bind].
    rewrite read_field_zero_padded by (cbn; lia). cbn [mbind option_bind].
    rewrite read_literal_here. cbn [mbind option_bind].
    rewrite read_field_zero_padded by (cbn; lia). cbn [mbind option_bind].
    rewrite read_literal_here. cbn [mbind option_bind].
    rewrite read_field_zero_padded by (cbn; lia). cbn [mbind option_bind].
    destruct (decide (microsecond t = 0)) as [Hzero|Hfrac].
    - change (list_ascii_of_string EmptyString) with (@nil ascii).
      rewrite app_nil_l.
      rewrite <- (app_nil_r (list_ascii_of_string "+00:00")).
      rewrite read_fraction_absent. cbn [mbind option_bind].
      rewrite read_literal_here. cbn [mbind option_bind].
      destruct (decide (@nil ascii = [])); [|done].
      destruct t; cbn in *. by rewrite Hzero.
    - rewrite list_ascii_of_string_app, list_ascii_of_string_of_list_ascii.
      cbn [map concat directive_chars].
      rewrite <- !app_assoc. rewrite app_nil_l.
      rewrite <- (app_nil_r (list_ascii_of_string "+00:00")).
      rewrite read_fraction_present by (cbn; lia). cbn [mbind option_bind].
      rewrite read_literal_here. cbn [mbind option_bind].
      destruct (decide (@nil ascii = [])); [|done]. by destruct t. }
  split; [exact Hback|]. split.
  - by rewrite Hback, embedded_timestamp_filename_of.
  - unfold isoformat. by destruct (decide (microsecond t = 0)).
Qed.

Lemma isoformat_reads_back_witness :
  timestamp_of_isoformat "2024-03-07T09:05:02+00:00"
  = Some (mk_datetime 2024 3 7 9 5 2 0).
Proof.
  refine (proj1 (isoformat_reads_back (mk_datetime 2024 3 7 9 5 2 0) _)).
  unfold valid_datetime. cbn. lia.
Defined.

(** ** Uploads and polls side by side *)

Lemma serve_images_keeps_pending (r : request) (e : env) (w : world) :
  about_images r → pending (snd (serve r e w)) = pending w.
Proof.
  destruct r as [[key|] ep]; unfold about_images; cbn; intros Himg;
    run; [|done].
  destruct (decide (Some key ≠ API_KEY e)); cbn; [done|].
  destruct ep as [| |body|]; cbn; try done.
  - destruct (decide (body = [])); cbn; [done|]. split_faults e; tidy; done.
  - split_faults e; tidy; done.
Qed.

(** X16. Uploads and listings do not consume a capture request.  After a
    [trigger_capture], any run of upload and listing requests, with any
    keys and any faults, leaves the request pending: the next
    [check_trigger] answers true. *)
Theorem uploads_do_not_consume_the_trigger
    (history : list (request * env)) (e0 e1 : env) (w : world) :
  Forall (λ re, about_images re.1) history →
  no_faults e0 → no_faults e1 →
  let w1 := snd (trigger_capture e0 w) in
  pending (serve_all history w1) = true
  ∧ fst (check_trigger e1 (serve_all history w1)) = Ok (trigger_response true).
Proof.
  intros Hall H0 H1. cbv zeta.
  destruct (trigger_capture_calm e0 H0 w) as (_ & Hflag).
  assert (Hpending : pending (serve_all history (snd (trigger_capture e0 w)))
                     = true).
  { induction history as [|[r e] history IH] using rev_ind.
    - unfold pending. cbn. by rewrite Hflag.
    - rewrite Forall_app, Forall_singleton in Hall. destruct Hall as [Hh Hr].
      rewrite serve_all_snoc, serve_images_keeps_pending by done. auto. }
  split; [exact Hpending|].
  destruct (check_trigger_calm e1 H1
              (serve_all history (snd (trigger_capture e0 w)))) as (Hres & _).
  fold (pending (serve_all history (snd (trigger_capture e0 w)))) in Hres.
  by rewrite Hpending in Hres.
Qed.

Lemma uploads_do_not_consume_the_trigger_witness :
  let e := calm (Some "s3cret") (mk_datetime 2024 3 7 9 5 2 123) "u" in
  let broken := mk_env (Some "s3cret") (λ _, Some "unreachable")
                  (mk_datetime 2024 3 7 9 5 3 0) "v" in
  let history := [(mk_request (Some "s3cret") (POST_upload [x2a%byte]), e);
                  (mk_request (Some "s3cret") GET_images, broken);
                  (mk_request None (POST_upload []), e)] in
  let w1 := snd (trigger_capture e fresh_world) in
  pending (serve_all history w1) = true
  ∧ fst (check_trigger e (serve_all history w1)) = Ok (trigger_response true).
Proof.
  apply (uploads_do_not_consume_the_trigger
    [(mk_request (Some "s3cret") (POST_upload [x2a%byte]),
      calm (Some "s3cret") (mk_datetime 2024 3 7 9 5 2 123) "u");
     (mk_request (Some "s3cret") GET_images,
      mk_env (Some "s3cret") (λ _, Some "unreachable")
        (mk_datetime 2024 3 7 9 5 3 0) "v");
     (mk_request None (POST_upload []),
      calm (Some "s3cret") (mk_datetime 2024 3 7 9 5 2 123) "u")]
    (calm (Some "s3cret") (mk_datetime 2024 3 7 9 5 2 123) "u")
    (calm (Some "s3cret") (mk_datetime 2024 3 7 9 5 2 123) "u")
    fresh_world).
  - repeat constructor.
  - intros s. reflexivity.
  - intros s. reflexivity.
Defined.
